(** * The webhook endpoint of bitrise-webhooks: service/hook/endpoint.go

    A shallow embedding of [HTTPHandler] and its helpers.  The handler is
    effectful Go code: it writes one HTTP response, writes log lines and
    calls the downstream build-trigger API.  Here those effects are an
    ordered list of events together with the state of the downstream API,
    threaded through a small state monad.

    Packages imported by endpoint.go whose sources are not part of the
    file (bitriseapi, config, service, metrics, hook/common, hook/github)
    enter as the fields of the record [Env] or as event constructors. *)

From Stdlib Require Import ZArith DecimalString.
From stdpp Require Import base gmap strings list.

(** ** Go values the handler manipulates *)

(** A non-nil Go [error]: only its [Error()] text is observed.  A nilable
    [error] is an [option error]. *)
Record error := errors_New { Error_text : string }.

(** [fmt.Sprintf("%s", err)] for an operand of interface type [error]:
    the text of a non-nil error, the placeholder fmt prints for nil. *)
Definition fmt_s (err : option error) : string :=
  match err with
  | Some e => Error_text e
  | None => "%!s(<nil>)"
  end.

(** [fmt.Sprintf("%d", n)] *)
Definition fmt_d (n : Z) : string := NilZero.string_of_int (Z.to_int n).

(** [*url.URL], passed around but never inspected by the handler. *)
Record URL := url_Parse { url_String : string }.

(** [net/http]'s status constant. *)
Definition http_StatusBadRequest : Z := 400.

(** [SuccessRespModel] and [ErrorRespModel] *)
Record SuccessRespModel := { Message : string }.
Record ErrorRespModel := { Errors : list error }.

(** [x] occurs in [s]. *)
Definition Includes (s x : string) : Prop := ∃ pre post, s = pre +:+ x +:+ post.

(** The same as a test: [x] starts [s], and [x] occurs in [s]. *)
Fixpoint startsWith (x s : string) : bool :=
  match x, s with
  | EmptyString, _ => true
  | String _ _, EmptyString => false
  | String c x', String d s' => Ascii.eqb c d && startsWith x' s'
  end.

Fixpoint includes (s x : string) : bool :=
  startsWith x s ||
  match s with
  | EmptyString => false
  | String _ s' => includes s' x
  end.

Section Hook.

(** [bitriseapi.TriggerAPIParamsModel]: one build to start; opaque here. *)
Context {TriggerAPIParamsModel : Type}.
(** What an [*http.Request] carries besides the route variables. *)
Context {Payload : Type}.
(** The state of the downstream build-trigger API. *)
Context {ApiState : Type}.

(** [*http.Request], with [mux.Vars(r)] as a map. *)
Record Request := {
  mux_Vars : gmap string string;
  payload : Payload
}.

(** [hookCommon.TransformResultModel], with the fields the handler reads.
    The reason of a skip has no field of its own: the handler prints
    [Error] after "Reason:". *)
Record TransformResultModel := {
  TriggerAPIParams : list TriggerAPIParamsModel;
  ShouldSkip : bool;
  Error : option error
}.

(** [hookCommon.Provider] *)
Record Provider := { Transform : Request → TransformResultModel }.

(** The collaborators of endpoint.go. *)
Record Env := {
  (** [github.HookProvider{}] *)
  github_HookProvider : Provider;
  (** [config.SendRequestToURL], nil or an override URL *)
  config_SendRequestToURL : option URL;
  (** [config.GetServerEnvMode()] and [config.ServerEnvModeProd] *)
  config_GetServerEnvMode : string;
  config_ServerEnvModeProd : string;
  (** [bitriseapi.BuildTriggerURL(apiRootURL, appSlug)] *)
  bitriseapi_BuildTriggerURL : string → string → URL + error;
  (** [bitriseapi.TriggerBuild(url, apiToken, params, isOnlyLog)]: its
      error result and its effect on the downstream API. *)
  bitriseapi_TriggerBuild :
    URL → string → TriggerAPIParamsModel → bool → ApiState → option error * ApiState
}.

(** ** Effects *)

(** What the handler hands to the [service] package; how that package
    encodes it and which status [RespondWithSuccess] writes is its own
    business. *)
Inductive Response :=
| RespondWithSuccess (resp : SuccessRespModel)
| RespondWithErrorJSON (status : Z) (resp : ErrorRespModel).

Inductive Event :=
| EvLog (line : string)
| EvTriggerBuild (triggerURL : URL) (apiToken : string)
                 (params : TriggerAPIParamsModel) (isOnlyLog : bool)
| EvRespond (resp : Response).

Record World := {
  events : list Event;
  api : ApiState
}.

(** A Go function either returns or panics. *)
Inductive Result (A : Type) :=
| Returned (a : A)
| Panicked.
#[global] Arguments Returned {A} a.
#[global] Arguments Panicked {A}.

Definition M (A : Type) : Type := World → Result A * World.

Definition ret {A} (a : A) : M A := λ w, (Returned a, w).

Definition panic {A} : M A := λ w, (Panicked, w).

Definition bind {A B} (m : M A) (k : A → M B) : M B :=
  λ w, match m w with
       | (Returned a, w') => k a w'
       | (Panicked, w') => (Panicked, w')
       end.

Notation "x <- m ;; k" := (bind m (λ x, k))
  (at level 100, m at next level, right associativity).
Notation "m ;; k" := (bind m (λ _, k))
  (at level 100, right associativity).

(** [s[i]] on a slice: a run-time panic when [i] is out of range. *)
Definition index {A} (s : list A) (i : nat) : M A :=
  match s !! i with
  | Some x => ret x
  | None => panic
  end.

Definition emit (e : Event) : M unit :=
  λ w, (Returned tt, {| events := events w ++ [e]; api := api w |}).

(** [log.Printf] *)
Definition log_Printf (line : string) : M unit := emit (EvLog line).

(** [service.RespondWithSuccess] and [service.RespondWithErrorJSON] *)
Definition service_RespondWithSuccess (resp : SuccessRespModel) : M unit :=
  emit (EvRespond (RespondWithSuccess resp)).

Definition service_RespondWithErrorJSON (status : Z) (resp : ErrorRespModel) : M unit :=
  emit (EvRespond (RespondWithErrorJSON status resp)).

(** [metrics.Trace(name, fn)] runs [fn]. *)
Definition metrics_Trace {A} (name : string) (fn : M A) : M A := fn.

(** ** endpoint.go *)

Variable env : Env.

Definition supportedProviders : gmap string Provider :=
  {[ "github" := github_HookProvider env ]}.

Definition respondWithErrors (errs : list error) : M unit :=
  service_RespondWithErrorJSON http_StatusBadRequest {| Errors := errs |}.

Definition respondWithSingleError (err : error) : M unit :=
  respondWithErrors [err].

Definition respondWithSingleErrorStr (errStr : string) : M unit :=
  respondWithSingleError (errors_New errStr).

Definition isOnlyLog : bool :=
  negb (bool_decide (config_SendRequestToURL env ≠ None)
        || String.eqb (config_GetServerEnvMode env) (config_ServerEnvModeProd env)).

Definition triggerBuild (triggerURL : URL) (apiToken : string)
    (triggerAPIParams : TriggerAPIParamsModel) : M (option error) :=
  λ w,
    let '(err, a) :=
      bitriseapi_TriggerBuild env triggerURL apiToken triggerAPIParams isOnlyLog (api w) in
    let w' := {| events := events w ++ [EvTriggerBuild triggerURL apiToken triggerAPIParams isOnlyLog];
                 api := a |} in
    match err with
    | Some _ => (Returned (Some (errors_New ("Failed to Trigger the Build: " +:+ fmt_s err))), w')
    | None => (Returned None, w')
    end.

(** The [for ... range] loop of the handler, appending to
    [respondWithErrors]. *)
Fixpoint triggerEach (triggerURL : URL) (apiToken : string)
    (params : list TriggerAPIParamsModel) (respondWithErrors : list error)
    : M (list error) :=
  match params with
  | [] => ret respondWithErrors
  | aBuildTriggerParam :: rest =>
      err <- triggerBuild triggerURL apiToken aBuildTriggerParam ;;
      triggerEach triggerURL apiToken rest
        (match err with
         | Some e => respondWithErrors ++ [e]
         | None => respondWithErrors
         end)
  end.

Definition noEventError : error :=
  errors_New "After processing the webhook we failed to detect any event in it which could be turned into a build.".

(** The closure traced as "Hook: Trigger Builds", started with
    [respondWithErrors = []error{}]; it returns the final value of that
    variable.  [buildTriggerCount] is captured from the handler. *)
Definition triggerBuilds (triggerURL : URL) (apiToken : string)
    (params : list TriggerAPIParamsModel) (buildTriggerCount : nat) : M (list error) :=
  let respondWithErrors : list error := [] in
  if Nat.eqb buildTriggerCount 0 then
    ret (respondWithErrors ++ [noEventError])
  else if Nat.eqb buildTriggerCount 1 then
    p <- index params 0 ;;
    err <- triggerBuild triggerURL apiToken p ;;
    match err with
    | Some e => ret (respondWithErrors ++ [e])
    | None => ret respondWithErrors
    end
  else
    triggerEach triggerURL apiToken params respondWithErrors.

Definition successMsg (buildTriggerCount : nat) : string :=
  if Nat.eqb buildTriggerCount 1 then "Successfully triggered 1 build."
  else "Successfully triggered " +:+ fmt_d (Z.of_nat buildTriggerCount) +:+ " builds.".

(** The three route variables; a key missing from a Go map reads as "". *)
Definition serviceID (r : Request) : string := default "" (mux_Vars r !! "service-id").
Definition appSlug (r : Request) : string := default "" (mux_Vars r !! "app-slug").
Definition apiToken (r : Request) : string := default "" (mux_Vars r !! "api-token").

(** The value [triggerURL] ends up with, or the error of
    [bitriseapi.BuildTriggerURL]. *)
Definition resolveTriggerURL (appSlug : string) : URL + error :=
  match config_SendRequestToURL env with
  | Some triggerURL => inl triggerURL
  | None => bitriseapi_BuildTriggerURL env "https://www.bitrise.io" appSlug
  end.

Definition HTTPHandler (r : Request) : M unit :=
  let serviceID := serviceID r in
  let appSlug := appSlug r in
  let apiToken := apiToken r in
  if String.eqb serviceID "" then
    respondWithSingleErrorStr "No service-id defined"
  else if String.eqb appSlug "" then
    respondWithSingleErrorStr "No App Slug parameter defined"
  else if String.eqb apiToken "" then
    respondWithSingleErrorStr "No API Token parameter defined"
  else
  match supportedProviders !! serviceID with
  | None =>
      respondWithSingleErrorStr ("Unsupported Webhook Type / Provider: " +:+ serviceID)
  | Some hookProvider =>
  hookTransformResult <- metrics_Trace "Hook: Transform" (ret (Transform hookProvider r)) ;;
  if ShouldSkip hookTransformResult then
    service_RespondWithSuccess
      {| Message := "Acknowledged, but skipping. Reason: " +:+ fmt_s (Error hookTransformResult) |}
  else
  match Error hookTransformResult with
  | Some _ =>
      let errMsg := "Failed to transform the webhook: " +:+ fmt_s (Error hookTransformResult) in
      log_Printf (" (debug) " +:+ errMsg) ;;
      respondWithSingleErrorStr errMsg
  | None =>
  (* Let's Trigger a Build! *)
  match resolveTriggerURL appSlug with
  | inr err =>
      log_Printf (" [!] Exception: hookHandler: failed to create Build Trigger URL: " +:+ fmt_s (Some err)) ;;
      respondWithSingleErrorStr ("Failed to create Build Trigger URL: " +:+ fmt_s (Some err))
  | inl triggerURL =>
  let buildTriggerCount := length (TriggerAPIParams hookTransformResult) in
  respondWithErrors <-
    metrics_Trace "Hook: Trigger Builds"
      (triggerBuilds triggerURL apiToken (TriggerAPIParams hookTransformResult) buildTriggerCount) ;;
  if Nat.ltb 0 (length respondWithErrors) then
    service_RespondWithErrorJSON http_StatusBadRequest {| Errors := respondWithErrors |}
  else
    service_RespondWithSuccess {| Message := successMsg buildTriggerCount |}
  end
  end
  end.

(** ** What the handler leaves behind *)

(** The handler returned after appending [evs] to the events, leaving the
    downstream API in state [a]. *)
Definition finished (w : World) (evs : list Event) (a : ApiState)
    : Result unit * World :=
  (Returned tt, {| events := events w ++ evs; api := a |}).

Definition reject (errs : list error) : Event :=
  EvRespond (RespondWithErrorJSON http_StatusBadRequest {| Errors := errs |}).

Definition accept (msg : string) : Event :=
  EvRespond (RespondWithSuccess {| Message := msg |}).

(** The request passes the presence checks, its service identifier is a
    key of the registry, and [Transform] of the provider found there
    returns [res]. *)
Definition Transformed (r : Request) (res : TransformResultModel) : Prop :=
  serviceID r ≠ "" ∧ appSlug r ≠ "" ∧ apiToken r ≠ "" ∧
  ∃ hookProvider,
    supportedProviders !! serviceID r = Some hookProvider ∧
    Transform hookProvider r = res.

(** The dispatcher as the specification words it: one downstream call per
    descriptor, in input order, whatever the earlier calls returned.  The
    result lists what each call returned, with the state the downstream
    API is left in. *)
Fixpoint attemptAll (triggerURL : URL) (apiToken : string)
    (params : list TriggerAPIParamsModel) (a : ApiState)
    : list (option error) * ApiState :=
  match params with
  | [] => ([], a)
  | p :: rest =>
      let first := bitriseapi_TriggerBuild env triggerURL apiToken p isOnlyLog a in
      let others := attemptAll triggerURL apiToken rest first.2 in
      (first.1 :: others.1, others.2)
  end.

(** The error reported for a downstream call that failed with [e]. *)
Definition dispatchError (e : error) : error :=
  errors_New ("Failed to Trigger the Build: " +:+ Error_text e).

(** One entry per failed attempt, none per successful one. *)
Definition errorList (outcomes : list (option error)) : list error :=
  omap (fmap dispatchError) outcomes.

Definition failed (outcomes : list (option error)) : list (option error) :=
  filter is_Some outcomes.

Definition attempts (triggerURL : URL) (apiToken : string)
    (params : list TriggerAPIParamsModel) : list Event :=
  (λ p, EvTriggerBuild triggerURL apiToken p isOnlyLog) <$> params.

(** The response that closes a dispatch of [n] descriptors with errors
    [errs]. *)
Definition dispatchResponse (n : nat) (errs : list error) : Event :=
  match errs with
  | [] => accept (successMsg n)
  | _ => reject errs
  end.

(** The rows of the outcome table, in the order the handler tests them. *)
Inductive Row :=
| MissingParameter
| UnsupportedProvider
| Skip
| TransformError
| URLResolutionFailure
| NoEventDetected
| DispatchFailure
| DispatchSuccess.

Definition isErrorRow (row : Row) : bool :=
  match row with
  | Skip | DispatchSuccess => false
  | _ => true
  end.

(** The row of the outcome table a request falls in, given the state [a]
    of the downstream API when the request arrives. *)
Definition rowOf (r : Request) (a : ApiState) : Row :=
  if bool_decide (serviceID r = "" ∨ appSlug r = "" ∨ apiToken r = "") then MissingParameter
  else match supportedProviders !! serviceID r with
  | None => UnsupportedProvider
  | Some hookProvider =>
    let res := Transform hookProvider r in
    if ShouldSkip res then Skip
    else if bool_decide (Error res ≠ None) then TransformError
    else match resolveTriggerURL (appSlug r) with
    | inr _ => URLResolutionFailure
    | inl triggerURL =>
      match TriggerAPIParams res with
      | [] => NoEventDetected
      | params =>
          if bool_decide (failed (attemptAll triggerURL (apiToken r) params a).1 = [])
          then DispatchSuccess else DispatchFailure
      end
    end
  end.

Definition isRespond (e : Event) : bool :=
  match e with
  | EvRespond _ => true
  | _ => false
  end.

(** ** Observations on events, requests and collaborators *)

Definition isLog (e : Event) : bool :=
  match e with
  | EvLog _ => true
  | _ => false
  end.

Definition isTriggerBuild (e : Event) : bool :=
  match e with
  | EvTriggerBuild _ _ _ _ => true
  | _ => false
  end.

(** The same collaborators with another [bitriseapi.BuildTriggerURL]. *)
Definition withBuildTriggerURL (resolver : string → string → URL + error) : Env :=
  {| github_HookProvider := github_HookProvider env;
     config_SendRequestToURL := config_SendRequestToURL env;
     config_GetServerEnvMode := config_GetServerEnvMode env;
     config_ServerEnvModeProd := config_ServerEnvModeProd env;
     bitriseapi_BuildTriggerURL := resolver;
     bitriseapi_TriggerBuild := bitriseapi_TriggerBuild env |}.

(** The same collaborators with another provider registered for github. *)
Definition withProvider (provider : Provider) : Env :=
  {| github_HookProvider := provider;
     config_SendRequestToURL := config_SendRequestToURL env;
     config_GetServerEnvMode := config_GetServerEnvMode env;
     config_ServerEnvModeProd := config_ServerEnvModeProd env;
     bitriseapi_BuildTriggerURL := bitriseapi_BuildTriggerURL env;
     bitriseapi_TriggerBuild := bitriseapi_TriggerBuild env |}.

(** The request with the route variable [key] not set at all. *)
Definition withoutVar (key : string) (r : Request) : Request :=
  {| mux_Vars := delete key (mux_Vars r); payload := payload r |}.

(** The route variables the handler reads. *)
Definition requiredVars : list string := ["service-id"; "app-slug"; "api-token"].

End Hook.

(** ** Test doubles

    The handler run against stand-ins for its collaborators: a provider
    that returns what the request's payload says, a resolver that fails
    on a slug it cannot parse, and a downstream API that counts its calls
    and fails the descriptor called "broken". *)

Module Fake.

Definition Params : Type := string.
Definition Payload : Type := @TransformResultModel Params.
Definition ApiState : Type := nat.

Definition HookProvider : @Provider Params Payload :=
  {| Transform := λ r, payload r |}.

Definition BuildTriggerURL (apiRootURL appSlug : string) : URL + error :=
  if String.eqb appSlug "%zz"
  then inr (errors_New "BuildTriggerURL: Failed to parse PATH, error: invalid URL escape")
  else inl (url_Parse (apiRootURL +:+ "/app/" +:+ appSlug +:+ "/build/start.json")).

Definition TriggerBuild (u : URL) (tok : string) (p : Params) (onlyLog : bool)
    (calls : ApiState) : option error * ApiState :=
  (if String.eqb p "broken" then Some (errors_New "status 500") else None, S calls).

Definition env (override : option URL) : @Env Params Payload ApiState :=
  {| github_HookProvider := HookProvider;
     config_SendRequestToURL := override;
     config_GetServerEnvMode := "production";
     config_ServerEnvModeProd := "production";
     bitriseapi_BuildTriggerURL := BuildTriggerURL;
     bitriseapi_TriggerBuild := TriggerBuild |}.

Definition request (vars : list (string * string)) (res : Payload) : @Request Payload :=
  {| mux_Vars := list_to_map vars; payload := res |}.

Definition hook (id : string) (res : Payload) : @Request Payload :=
  request [("service-id", id); ("app-slug", "slug"); ("api-token", "secret")] res.

Definition result (params : list Params) (skip : bool) (err : option error) : Payload :=
  {| TriggerAPIParams := params; ShouldSkip := skip; Error := err |}.

Definition start : @World Params ApiState := {| events := []; api := 0 |}.

Definition canonical : URL := url_Parse "https://www.bitrise.io/app/slug/build/start.json".

(** A request whose app slug the resolver cannot parse. *)
Definition unparsable (res : Payload) : @Request Payload :=
  request [("service-id", "github"); ("app-slug", "%zz"); ("api-token", "secret")] res.

(** A resolver that never succeeds and a provider that always finds a
    build to start. *)
Definition brokenResolver (apiRootURL appSlug : string) : URL + error :=
  inr (errors_New "no route to host").

Definition EagerProvider : @Provider Params Payload :=
  {| Transform := λ _, result ["always"] false None |}.

Definition override : URL := url_Parse "http://localhost:4000/trigger".

End Fake.

(** ** Properties of the handler *)

Section Properties.

Context {TriggerAPIParamsModel Payload ApiState : Type}.
Variable env : @Env TriggerAPIParamsModel Payload ApiState.

Local Abbreviation World := (@World TriggerAPIParamsModel ApiState) (only parsing).
Local Abbreviation Event := (@Event TriggerAPIParamsModel) (only parsing).
Local Abbreviation Request := (@Request Payload) (only parsing).
Local Abbreviation TransformResultModel :=
  (@TransformResultModel TriggerAPIParamsModel) (only parsing).

Lemma world_eta (w : World) : {| events := events w; api := api w |} = w.
Proof. by destruct w. Qed.

(** The presence checks pass and the registry knows the service. *)
Ltac enter_handler H :=
  let Hs := fresh "Hs" in let Ha := fresh "Ha" in let Ht := fresh "Ht" in
  let hp := fresh "hookProvider" in let Hl := fresh "Hl" in let Hr := fresh "Hr" in
  destruct H as (Hs & Ha & Ht & hp & Hl & Hr);
  unfold HTTPHandler;
  rewrite (proj2 (String.eqb_neq _ _) Hs), (proj2 (String.eqb_neq _ _) Ha),
    (proj2 (String.eqb_neq _ _) Ht), Hl;
  unfold metrics_Trace; unfold bind at 1; unfold ret at 1; cbv beta iota;
  rewrite Hr.

Lemma append_empty_r (x : string) : x +:+ "" = x.
Proof.
  induction x as [|c x IH]; [done |].
  change (String c x +:+ "") with (String c (x +:+ "")). by rewrite IH.
Qed.

Lemma startsWith_append (x post : string) : startsWith x (x +:+ post) = true.
Proof.
  induction x as [|c x IH]; [done |].
  change (String c x +:+ post) with (String c (x +:+ post)).
  cbn. by rewrite Ascii.eqb_refl, IH.
Qed.

Lemma Includes_includes (s x : string) : Includes s x → includes s x = true.
Proof.
  intros (pre & post & ->).
  induction pre as [|c pre IH].
  - change ("" +:+ x +:+ post) with (x +:+ post).
    destruct (x +:+ post) eqn:E; cbn; rewrite <- ?E, startsWith_append; done.
  - change (String c pre +:+ x +:+ post) with (String c (pre +:+ x +:+ post)).
    cbn [includes]. rewrite IH. apply orb_true_r.
Qed.

Lemma Includes_suffix (pre x : string) : Includes (pre +:+ x) x.
Proof. exists pre, "". by rewrite append_empty_r. Qed.

(** *** The loop and the dispatcher *)

Lemma errorList_cons (o : option error) (outcomes : list (option error)) :
  errorList (o :: outcomes) =
  match o with Some e => dispatchError e :: errorList outcomes | None => errorList outcomes end.
Proof. by destruct o. Qed.

Lemma triggerEach_attemptAll (triggerURL : URL) (tok : string)
    (params : list TriggerAPIParamsModel) :
  ∀ (errs : list error) (w : World),
    triggerEach env triggerURL tok params errs w =
    (Returned (errs ++ errorList (attemptAll env triggerURL tok params (api w)).1),
     {| events := events w ++ attempts env triggerURL tok params;
        api := (attemptAll env triggerURL tok params (api w)).2 |}).
Proof.
  induction params as [|p rest IH]; intros errs w.
  - cbn. by rewrite !app_nil_r, world_eta.
  - cbn [triggerEach attemptAll attempts fmap list_fmap].
    unfold bind, triggerBuild.
    destruct (bitriseapi_TriggerBuild env triggerURL tok p (isOnlyLog env) (api w)) as [o a] eqn:Ho.
    cbn [fst snd]. rewrite errorList_cons.
    destruct o as [e|]; rewrite IH; cbn [events api]; unfold attempts;
      by rewrite <- ?app_assoc.
Qed.

Lemma triggerBuilds_attemptAll (triggerURL : URL) (tok : string)
    (params : list TriggerAPIParamsModel) (w : World) :
  params ≠ [] →
  triggerBuilds env triggerURL tok params (length params) w =
  (Returned (errorList (attemptAll env triggerURL tok params (api w)).1),
   {| events := events w ++ attempts env triggerURL tok params;
      api := (attemptAll env triggerURL tok params (api w)).2 |}).
Proof.
  intros Hne. destruct params as [|p [|q rest]]; [done | |].
  - unfold triggerBuilds. cbn [length Nat.eqb index lookup list_lookup].
    unfold bind at 1. unfold ret at 1. unfold bind, triggerBuild. cbn.
    destruct (bitriseapi_TriggerBuild env triggerURL tok p (isOnlyLog env) (api w)) as [o a].
    by destruct o.
  - unfold triggerBuilds. cbn [length Nat.eqb].
    by rewrite triggerEach_attemptAll.
Qed.

Lemma attemptAll_length (triggerURL : URL) (tok : string)
    (params : list TriggerAPIParamsModel) :
  ∀ a, length (attemptAll env triggerURL tok params a).1 = length params.
Proof. induction params as [|p rest IH]; intros a; cbn; [done | by rewrite IH]. Qed.

Lemma errorList_length (outcomes : list (option error)) :
  length (errorList outcomes) = length (failed outcomes).
Proof.
  induction outcomes as [|o outcomes IH]; [done |].
  rewrite errorList_cons. unfold failed in *. rewrite filter_cons.
  destruct o as [e|]; cbn.
  - destruct (decide (is_Some (Some e))) as [|n]; [cbn; by rewrite IH | by destruct n].
  - destruct (decide (is_Some (@None error))) as [[x Hx]|]; [done | apply IH].
Qed.

Lemma errorList_nil (outcomes : list (option error)) :
  errorList outcomes = [] ↔ failed outcomes = [].
Proof.
  split; intros H; apply nil_length_inv;
    [rewrite <- errorList_length | rewrite errorList_length]; by rewrite H.
Qed.

(** The handler from the dispatch on, for a request that got that far. *)
Lemma HTTPHandler_dispatch (r : Request) (res : TransformResultModel)
    (triggerURL : URL) (w : World) :
  Transformed env r res → ShouldSkip res = false → Error res = None →
  resolveTriggerURL env (appSlug r) = inl triggerURL →
  TriggerAPIParams res ≠ [] →
  let done := attemptAll env triggerURL (apiToken r) (TriggerAPIParams res) (api w) in
  HTTPHandler env r w =
  finished w
    (attempts env triggerURL (apiToken r) (TriggerAPIParams res) ++
     [dispatchResponse (length (TriggerAPIParams res)) (errorList done.1)])
    done.2.
Proof.
  intros HT Hskip Herr Hurl Hne done.
  enter_handler HT. rewrite Hskip, Herr, Hurl.
  unfold bind. rewrite triggerBuilds_attemptAll by done.
  fold done. unfold finished, dispatchResponse.
  destruct (errorList done.1) as [|e errs]; cbn [length Nat.ltb Nat.leb];
    unfold service_RespondWithErrorJSON, service_RespondWithSuccess, emit;
    cbn [events api]; by rewrite app_assoc.
Qed.

(** *** Presence checks and provider lookup *)

Lemma handler_no_serviceID (r : Request) (w : World) :
  serviceID r = "" →
  HTTPHandler env r w = finished w [reject [errors_New "No service-id defined"]] (api w).
Proof. intros Hs. unfold HTTPHandler. by rewrite Hs. Qed.

Lemma handler_no_appSlug (r : Request) (w : World) :
  serviceID r ≠ "" → appSlug r = "" →
  HTTPHandler env r w = finished w [reject [errors_New "No App Slug parameter defined"]] (api w).
Proof.
  intros Hs Ha. unfold HTTPHandler.
  by rewrite (proj2 (String.eqb_neq _ _) Hs), Ha.
Qed.

Lemma handler_no_apiToken (r : Request) (w : World) :
  serviceID r ≠ "" → appSlug r ≠ "" → apiToken r = "" →
  HTTPHandler env r w = finished w [reject [errors_New "No API Token parameter defined"]] (api w).
Proof.
  intros Hs Ha Ht. unfold HTTPHandler.
  by rewrite (proj2 (String.eqb_neq _ _) Hs), (proj2 (String.eqb_neq _ _) Ha), Ht.
Qed.

Lemma handler_lookup_miss (r : Request) (w : World) :
  serviceID r ≠ "" → appSlug r ≠ "" → apiToken r ≠ "" →
  supportedProviders env !! serviceID r = None →
  HTTPHandler env r w =
    finished w
      [reject [errors_New ("Unsupported Webhook Type / Provider: " +:+ serviceID r)]]
      (api w).
Proof.
  intros Hs Ha Ht Hl. unfold HTTPHandler.
  by rewrite (proj2 (String.eqb_neq _ _) Hs), (proj2 (String.eqb_neq _ _) Ha),
    (proj2 (String.eqb_neq _ _) Ht), Hl.
Qed.

(** C4: a request that omits a required parameter is rejected with the
    single error naming it; the checks run in the order service-id,
    app-slug, api-token, so the first missing one in that order is the one
    reported, whatever else is missing. *)
Theorem missing_parameter_rejected (r : Request) (w : World) :
  (serviceID r = "" →
     HTTPHandler env r w = finished w [reject [errors_New "No service-id defined"]] (api w)) ∧
  (serviceID r ≠ "" → appSlug r = "" →
     HTTPHandler env r w = finished w [reject [errors_New "No App Slug parameter defined"]] (api w)) ∧
  (serviceID r ≠ "" → appSlug r ≠ "" → apiToken r = "" →
     HTTPHandler env r w = finished w [reject [errors_New "No API Token parameter defined"]] (api w)).
Proof.
  split; [| split].
  - apply handler_no_serviceID.
  - apply handler_no_appSlug.
  - apply handler_no_apiToken.
Qed.

(** A route variable that is not set reads as the empty string. *)
Lemma omitted_reads_empty (r : Request) :
  (mux_Vars r !! "service-id" = None → serviceID r = "") ∧
  (mux_Vars r !! "app-slug" = None → appSlug r = "") ∧
  (mux_Vars r !! "api-token" = None → apiToken r = "").
Proof.
  unfold serviceID, appSlug, apiToken. repeat split; intros H; by rewrite H.
Qed.

Lemma registry_keys (id : string) :
  id ∈ dom (supportedProviders env) ↔ id = "github".
Proof. unfold supportedProviders. rewrite dom_singleton_L. set_solver. Qed.

(** C5, as the handler has it: the presence checks run before the lookup.
    A request that carries an app slug and an API token and whose service
    identifier is not a key of the registry is rejected with a single
    error whose text includes the identifier; for a non-empty identifier
    that error is "Unsupported Webhook Type / Provider: <identifier>".
    The handler returns, nothing is logged and no downstream call is
    made. *)
Theorem unsupported_provider_rejected (r : Request) (w : World) :
  appSlug r ≠ "" → apiToken r ≠ "" →
  serviceID r ∉ dom (supportedProviders env) →
  ∃ e : error,
    HTTPHandler env r w = finished w [reject [e]] (api w) ∧
    Includes (Error_text e) (serviceID r) ∧
    (serviceID r ≠ "" →
       e = errors_New ("Unsupported Webhook Type / Provider: " +:+ serviceID r)).
Proof.
  intros Ha Ht Hdom.
  destruct (decide (serviceID r = "")) as [Hs|Hs].
  - exists (errors_New "No service-id defined").
    split; [by apply handler_no_serviceID |].
    split; [| done]. rewrite Hs. by exists "", "No service-id defined".
  - exists (errors_New ("Unsupported Webhook Type / Provider: " +:+ serviceID r)).
    split; [| split; [apply Includes_suffix | done]].
    apply handler_lookup_miss; try done. by apply not_elem_of_dom.
Qed.

(** Whatever else a request carries, an identifier outside the registry
    never gets past a single-error rejection. *)
Lemma unknown_identifier_never_accepted (r : Request) (w : World) :
  serviceID r ∉ dom (supportedProviders env) →
  ∃ e, HTTPHandler env r w = finished w [reject [e]] (api w).
Proof.
  intros Hdom. apply not_elem_of_dom in Hdom.
  destruct (decide (serviceID r = "")) as [Hs|Hs];
    [eexists; by apply handler_no_serviceID |].
  destruct (decide (appSlug r = "")) as [Ha|Ha];
    [eexists; by apply handler_no_appSlug |].
  destruct (decide (apiToken r = "")) as [Ht|Ht];
    [eexists; by apply handler_no_apiToken |].
  eexists. by apply handler_lookup_miss.
Qed.

(** *** Skip and transform error *)

Lemma handler_skip (r : Request) (res : TransformResultModel) (w : World) :
  Transformed env r res → ShouldSkip res = true →
  HTTPHandler env r w =
    finished w [accept ("Acknowledged, but skipping. Reason: " +:+ fmt_s (Error res))] (api w).
Proof. intros HT Hskip. enter_handler HT. by rewrite Hskip. Qed.

Lemma handler_transform_error (r : Request) (res : TransformResultModel)
    (e : error) (w : World) :
  Transformed env r res → ShouldSkip res = false → Error res = Some e →
  HTTPHandler env r w =
    finished w
      [EvLog (" (debug) " +:+ "Failed to transform the webhook: " +:+ Error_text e);
       reject [errors_New ("Failed to transform the webhook: " +:+ Error_text e)]]
      (api w).
Proof.
  intros HT Hskip Herr. enter_handler HT. rewrite Hskip, Herr.
  unfold bind, log_Printf, respondWithSingleErrorStr, respondWithSingleError,
    respondWithErrors, service_RespondWithErrorJSON, emit, finished.
  cbn. by rewrite <- app_assoc.
Qed.

(** C1: when the provider asks to skip, the request is accepted and the
    message carries the reason the provider gave.  The reason travels in
    the result's [Error] field, the one the handler prints after
    "Reason:". *)
Theorem skip_acknowledged_with_reason (r : Request) (res : TransformResultModel)
    (X : error) (w : World) :
  Transformed env r res → ShouldSkip res = true → Error res = Some X →
  ∃ msg, HTTPHandler env r w = finished w [accept msg] (api w) ∧
         Includes msg (Error_text X).
Proof.
  intros HT Hskip Herr. rewrite (handler_skip r res w HT Hskip), Herr.
  eexists. split; [reflexivity | apply Includes_suffix].
Qed.

(** C6: a transform error on a result that does not ask to skip is logged
    with the " (debug) " prefix and then reported as the single error of
    a rejection, its text wrapped; the downstream API is not called. *)
Theorem transform_error_rejected (r : Request) (res : TransformResultModel)
    (e : error) (w : World) :
  Transformed env r res → ShouldSkip res = false → Error res = Some e →
  let errMsg := "Failed to transform the webhook: " +:+ Error_text e in
  HTTPHandler env r w =
    finished w [EvLog (" (debug) " +:+ errMsg); reject [errors_New errMsg]] (api w) ∧
  Includes errMsg (Error_text e).
Proof.
  intros HT Hskip Herr errMsg. split; [| apply Includes_suffix].
  by apply (handler_transform_error r res).
Qed.

(** C10: the skip flag is tested before the error.  A result carrying both
    is accepted as a skip, whatever descriptors it also carries; the
    message is the acknowledgment followed by the text of the error, and
    neither the debug line of the error branch nor a downstream call
    appears. *)
Theorem skip_takes_precedence_over_error (r : Request) (res : TransformResultModel)
    (e : error) (w : World) :
  Transformed env r res → ShouldSkip res = true → Error res = Some e →
  HTTPHandler env r w =
    finished w [accept ("Acknowledged, but skipping. Reason: " +:+ Error_text e)] (api w).
Proof.
  intros HT Hskip Herr. by rewrite (handler_skip r res w HT Hskip), Herr.
Qed.

(** A skip without an error prints fmt's placeholder for nil. *)
Lemma skip_without_reason (r : Request) (res : TransformResultModel) (w : World) :
  Transformed env r res → ShouldSkip res = true → Error res = None →
  HTTPHandler env r w =
    finished w [accept "Acknowledged, but skipping. Reason: %!s(<nil>)"] (api w).
Proof.
  intros HT Hskip Herr. enter_handler HT. by rewrite Hskip, Herr.
Qed.

(** *** Trigger URL resolution *)

Lemma handler_url_failure (r : Request) (res : TransformResultModel)
    (e : error) (w : World) :
  Transformed env r res → ShouldSkip res = false → Error res = None →
  resolveTriggerURL env (appSlug r) = inr e →
  HTTPHandler env r w =
    finished w
      [EvLog (" [!] Exception: hookHandler: failed to create Build Trigger URL: " +:+ Error_text e);
       reject [errors_New ("Failed to create Build Trigger URL: " +:+ Error_text e)]]
      (api w).
Proof.
  intros HT Hskip Herr Hurl. enter_handler HT. rewrite Hskip, Herr, Hurl.
  unfold bind, log_Printf, respondWithSingleErrorStr, respondWithSingleError,
    respondWithErrors, service_RespondWithErrorJSON, emit, finished.
  cbn. by rewrite <- app_assoc.
Qed.

Lemma handler_no_event (r : Request) (res : TransformResultModel)
    (triggerURL : URL) (w : World) :
  Transformed env r res → ShouldSkip res = false → Error res = None →
  resolveTriggerURL env (appSlug r) = inl triggerURL →
  TriggerAPIParams res = [] →
  HTTPHandler env r w = finished w [reject [noEventError]] (api w).
Proof.
  intros HT Hskip Herr Hurl Hnil. enter_handler HT.
  rewrite Hskip, Herr, Hurl, Hnil. by unfold bind, triggerBuilds.
Qed.

(** C8: for a request that reaches the dispatch, a configured override is
    the URL of every downstream call, whatever [bitriseapi.BuildTriggerURL]
    would answer; without an override the URL is the one derived from
    "https://www.bitrise.io" and the app slug; and when that derivation
    fails the handler logs the failure, rejects with status 400 and a
    single error, returns normally and calls nothing downstream. *)
Theorem trigger_url_resolution (r : Request) (res : TransformResultModel) (w : World) :
  Transformed env r res → ShouldSkip res = false → Error res = None →
  let params := TriggerAPIParams res in
  let dispatched (u : URL) :=
    finished w
      (attempts env u (apiToken r) params ++
       [dispatchResponse (length params)
          (errorList (attemptAll env u (apiToken r) params (api w)).1)])
      (attemptAll env u (apiToken r) params (api w)).2 in
  (∀ u, config_SendRequestToURL env = Some u → params ≠ [] →
        HTTPHandler env r w = dispatched u) ∧
  (∀ u, config_SendRequestToURL env = None →
        bitriseapi_BuildTriggerURL env "https://www.bitrise.io" (appSlug r) = inl u →
        params ≠ [] →
        HTTPHandler env r w = dispatched u) ∧
  (∀ e, config_SendRequestToURL env = None →
        bitriseapi_BuildTriggerURL env "https://www.bitrise.io" (appSlug r) = inr e →
        HTTPHandler env r w =
          finished w
            [EvLog (" [!] Exception: hookHandler: failed to create Build Trigger URL: "
                    +:+ Error_text e);
             EvRespond (RespondWithErrorJSON 400
               {| Errors := [errors_New ("Failed to create Build Trigger URL: " +:+ Error_text e)] |})]
            (api w)).
Proof.
  intros HT Hskip Herr params dispatched. split; [| split].
  - intros u Hcfg Hne. apply HTTPHandler_dispatch; try done.
    unfold resolveTriggerURL. by rewrite Hcfg.
  - intros u Hcfg Hurl Hne. apply HTTPHandler_dispatch; try done.
    unfold resolveTriggerURL. by rewrite Hcfg.
  - intros e Hcfg Hurl. apply (handler_url_failure r res); try done.
    unfold resolveTriggerURL. by rewrite Hcfg.
Qed.

(** *** Dispatch *)

Lemma attempts_length (triggerURL : URL) (tok : string)
    (params : list TriggerAPIParamsModel) :
  length (attempts env triggerURL tok params) = length params.
Proof. unfold attempts. apply length_fmap. Qed.

Lemma all_succeeded_no_errors (outcomes : list (option error)) :
  Forall (λ o, o = None) outcomes → errorList outcomes = [].
Proof.
  induction 1 as [|o outcomes Ho _ IH]; [done |].
  rewrite errorList_cons. by subst o.
Qed.

(** C2: given N >= 1 descriptors, the dispatcher calls the downstream API
    exactly N times, once per descriptor and in input order, each call
    made whatever the earlier ones returned; the error list it builds has
    one entry for every call that failed, in call order, and none for a
    call that succeeded.  When the descriptors are those of a request that
    reaches the dispatch, the handler's events are those N calls followed
    by the response. *)
Theorem dispatcher_attempts_every_trigger (triggerURL : URL) (tok : string)
    (params : list TriggerAPIParamsModel) (w : World) :
  1 ≤ length params →
  let N := length params in
  ∃ (outcomes : list (option error)) (a : ApiState),
    attemptAll env triggerURL tok params (api w) = (outcomes, a) ∧
    length outcomes = N ∧
    length (attempts env triggerURL tok params) = N ∧
    triggerBuilds env triggerURL tok params N w =
      (Returned (errorList outcomes),
       {| events := events w ++ attempts env triggerURL tok params; api := a |}) ∧
    length (errorList outcomes) = length (failed outcomes) ∧
    ∀ (r : Request) (res : TransformResultModel),
      Transformed env r res → ShouldSkip res = false → Error res = None →
      resolveTriggerURL env (appSlug r) = inl triggerURL →
      TriggerAPIParams res = params → apiToken r = tok →
      HTTPHandler env r w =
        finished w
          (attempts env triggerURL tok params ++ [dispatchResponse N (errorList outcomes)])
          a.
Proof.
  intros HN N. subst N.
  assert (Hne : params ≠ []) by (intros E; rewrite E in HN; cbn in HN; lia).
  pose proof (attemptAll_length triggerURL tok params (api w)) as Hlen.
  pose proof (triggerBuilds_attemptAll triggerURL tok params w Hne) as Hdisp.
  destruct (attemptAll env triggerURL tok params (api w)) as [outcomes a] eqn:Hall.
  exists outcomes, a.
  repeat split; auto using attempts_length, errorList_length.
  intros r res HT Hskip Herr Hurl Hps Htok. subst params tok.
  pose proof (HTTPHandler_dispatch r res triggerURL w HT Hskip Herr Hurl Hne) as Hrun.
  cbv zeta in Hrun. by rewrite Hall in Hrun.
Qed.

(** C7: when each of the N >= 1 downstream calls succeeds the request is
    accepted; the message is "Successfully triggered 1 build." for N = 1
    and "Successfully triggered N builds." with N in decimal otherwise. *)
Theorem all_triggers_succeed_accepted (r : Request) (res : TransformResultModel)
    (triggerURL : URL) (w : World) :
  Transformed env r res → ShouldSkip res = false → Error res = None →
  resolveTriggerURL env (appSlug r) = inl triggerURL →
  let params := TriggerAPIParams res in
  let N := length params in
  1 ≤ N →
  Forall (λ o, o = None) (attemptAll env triggerURL (apiToken r) params (api w)).1 →
  HTTPHandler env r w =
    finished w
      (attempts env triggerURL (apiToken r) params ++
       [accept (if decide (N = 1) then "Successfully triggered 1 build."
                else "Successfully triggered " +:+ fmt_d (Z.of_nat N) +:+ " builds.")])
      (attemptAll env triggerURL (apiToken r) params (api w)).2.
Proof.
  intros HT Hskip Herr Hurl params N HN Hall.
  assert (Hne : params ≠ []) by (intros E; subst N; rewrite E in HN; cbn in HN; lia).
  rewrite (HTTPHandler_dispatch r res triggerURL w HT Hskip Herr Hurl Hne).
  fold params. rewrite (all_succeeded_no_errors _ Hall).
  unfold dispatchResponse, successMsg. fold N.
  destruct (decide (N = 1)) as [->|Hn]; [done |].
  by rewrite (proj2 (Nat.eqb_neq _ _) Hn).
Qed.

(** C3, as the handler has it: the trigger URL is resolved before the
    number of descriptors is looked at.  A result with no descriptor, no
    skip and no error is rejected with the single "no event" error when
    the URL resolves, and with the single URL error (after the log line)
    when it does not; neither way is the downstream API called. *)
Theorem no_event_rejected_after_url_resolution (r : Request)
    (res : TransformResultModel) (w : World) :
  Transformed env r res → ShouldSkip res = false → Error res = None →
  TriggerAPIParams res = [] →
  match resolveTriggerURL env (appSlug r) with
  | inl _ =>
      HTTPHandler env r w =
        finished w
          [reject [errors_New "After processing the webhook we failed to detect any event in it which could be turned into a build."]]
          (api w)
  | inr e =>
      HTTPHandler env r w =
        finished w
          [EvLog (" [!] Exception: hookHandler: failed to create Build Trigger URL: "
                  +:+ Error_text e);
           reject [errors_New ("Failed to create Build Trigger URL: " +:+ Error_text e)]]
          (api w)
  end.
Proof.
  intros HT Hskip Herr Hnil.
  destruct (resolveTriggerURL env (appSlug r)) as [u|e] eqn:Hurl.
  - by apply (handler_no_event r res u).
  - by apply (handler_url_failure r res).
Qed.

(** *** The two status classes *)

Lemma attempts_no_response (triggerURL : URL) (tok : string)
    (params : list TriggerAPIParamsModel) :
  Forall (λ e, isRespond e = false) (attempts env triggerURL tok params).
Proof. unfold attempts. apply Forall_fmap. by apply Forall_true. Qed.

Ltac error_row := cbn; eexists; split; [| reflexivity]; done.
Ltac success_row := cbn; by eexists.

(** C9: the handler always returns having written exactly one response,
    as its last event.  In every error row of the outcome table (missing
    parameter, unsupported provider, transform error, URL resolution
    failure, no event detected, dispatch failure) the response is written
    by [service.RespondWithErrorJSON] with status 400 and a non-empty
    error list; in the two other rows (skip, dispatch success) it is
    written by [service.RespondWithSuccess], which takes no status. *)
Theorem two_status_classes (r : Request) (w : World) :
  ∃ (pre : list Event) (resp : Response) (a : ApiState),
    HTTPHandler env r w = finished w (pre ++ [EvRespond resp]) a ∧
    Forall (λ e, isRespond e = false) pre ∧
    if isErrorRow (rowOf env r (api w))
    then ∃ errs, errs ≠ [] ∧
                 resp = RespondWithErrorJSON 400 {| Errors := errs |}
    else ∃ msg, resp = RespondWithSuccess {| Message := msg |}.
Proof.
  unfold rowOf. case_bool_decide as Hmiss.
  { exists [], (RespondWithErrorJSON 400 {| Errors :=
      [errors_New (if decide (serviceID r = "") then "No service-id defined"
                   else if decide (appSlug r = "") then "No App Slug parameter defined"
                   else "No API Token parameter defined")] |}), (api w).
    split; [| split; [constructor | error_row]].
    destruct (decide (serviceID r = "")) as [Hs|Hs]; [by apply handler_no_serviceID |].
    destruct (decide (appSlug r = "")) as [Ha|Ha]; [by apply handler_no_appSlug |].
    apply handler_no_apiToken; try done. by destruct Hmiss as [|[|]]. }
  assert (serviceID r ≠ "" ∧ appSlug r ≠ "" ∧ apiToken r ≠ "") as (Hs & Ha & Ht)
    by (repeat split; intros E; apply Hmiss; auto).
  destruct (supportedProviders env !! serviceID r) as [hookProvider|] eqn:Hl.
  2: { eexists [], _, (api w).
       split; [by apply handler_lookup_miss | split; [constructor | error_row]]. }
  set (res := Transform hookProvider r).
  assert (HT : Transformed env r res) by (repeat split; try done; by exists hookProvider).
  destruct (ShouldSkip res) eqn:Hskip.
  { eexists [], _, (api w).
    split; [by apply handler_skip | split; [constructor | success_row]]. }
  destruct (Error res) as [e|] eqn:Herr.
  { rewrite bool_decide_eq_true_2 by done.
    eexists [_], _, (api w).
    split; [by apply (handler_transform_error r res) |].
    split; [by repeat constructor | error_row]. }
  rewrite bool_decide_eq_false_2 by (intros E; by apply E).
  destruct (resolveTriggerURL env (appSlug r)) as [u|e] eqn:Hurl.
  2: { eexists [_], _, (api w).
       split; [by apply (handler_url_failure r res) |].
       split; [by repeat constructor | error_row]. }
  destruct (TriggerAPIParams res) as [|p rest] eqn:Hps.
  { eexists [], _, (api w).
    split; [by apply (handler_no_event r res u) | split; [constructor | error_row]]. }
  assert (Hne : TriggerAPIParams res ≠ []) by (by rewrite Hps).
  pose proof (HTTPHandler_dispatch r res u w HT Hskip Herr Hurl Hne) as Hrun.
  cbv zeta in Hrun. rewrite Hps in Hrun.
  set (outcomes := (attemptAll env u (apiToken r) (p :: rest) (api w)).1) in *.
  destruct (errorList outcomes) as [|e errs] eqn:Herrs.
  - eexists (attempts env u (apiToken r) (p :: rest)), _, _.
    split; [exact Hrun | split; [apply attempts_no_response |]].
    rewrite bool_decide_eq_true_2 by (by apply errorList_nil). success_row.
  - eexists (attempts env u (apiToken r) (p :: rest)), _, _.
    split; [exact Hrun | split; [apply attempts_no_response |]].
    rewrite bool_decide_eq_false_2; [error_row |].
    intros Hfail. apply errorList_nil in Hfail. by rewrite Hfail in Herrs.
Qed.

(** ** Further properties of endpoint.go *)

Lemma Transformed_github (r : Request) (res : TransformResultModel) :
  Transformed env r res →
  serviceID r = "github" ∧ appSlug r ≠ "" ∧ apiToken r ≠ "" ∧
  res = Transform (github_HookProvider env) r.
Proof.
  intros (Hs & Ha & Ht & hp & Hl & Hr).
  unfold supportedProviders in Hl. apply lookup_singleton_Some in Hl as [Hid <-].
  by rewrite <- Hid, Hr.
Qed.

Lemma failed_nil_Forall (outcomes : list (option error)) :
  failed outcomes = [] ↔ Forall (λ o, o = None) outcomes.
Proof.
  unfold failed. induction outcomes as [|o outcomes IH]; [by split |].
  rewrite filter_cons. destruct o as [e|].
  - destruct (decide (is_Some (Some e))) as [_|n]; [| by destruct n].
    split; [done | intros H; by inversion H].
  - destruct (decide (is_Some (@None error))) as [[x Hx]|_]; [done |].
    rewrite IH. split; [by constructor | intros H; by inversion H].
Qed.

Lemma failed_cons_Exists (outcomes : list (option error)) :
  failed outcomes ≠ [] ↔ Exists is_Some outcomes.
Proof.
  unfold failed. induction outcomes as [|o outcomes IH].
  - split; [done | intros H; inversion H].
  - rewrite filter_cons. destruct o as [e|].
    + destruct (decide (is_Some (Some e))) as [_|n]; [| by destruct n].
      split; [intros _; by left | done].
    + destruct (decide (is_Some (@None error))) as [[x Hx]|_]; [done |].
      rewrite IH. split; [by right |].
      intros H. inversion H as [? ? [x Hx]|]; [done | done].
Qed.

(** What the handler does in each row of the outcome table. *)
Lemma handler_cases (r : Request) (w : World) :
  match rowOf env r (api w) with
  | MissingParameter =>
      (serviceID r = "" ∨ appSlug r = "" ∨ apiToken r = "") ∧
      ∃ e, HTTPHandler env r w = finished w [reject [e]] (api w)
  | UnsupportedProvider =>
      serviceID r ≠ "" ∧ appSlug r ≠ "" ∧ apiToken r ≠ "" ∧ serviceID r ≠ "github" ∧
      HTTPHandler env r w =
        finished w
          [reject [errors_New ("Unsupported Webhook Type / Provider: " +:+ serviceID r)]]
          (api w)
  | Skip =>
      ∃ res, Transformed env r res ∧ ShouldSkip res = true ∧
        HTTPHandler env r w =
          finished w
            [accept ("Acknowledged, but skipping. Reason: " +:+ fmt_s (Error res))] (api w)
  | TransformError =>
      ∃ res e, Transformed env r res ∧ ShouldSkip res = false ∧ Error res = Some e ∧
        HTTPHandler env r w =
          finished w
            [EvLog (" (debug) " +:+ "Failed to transform the webhook: " +:+ Error_text e);
             reject [errors_New ("Failed to transform the webhook: " +:+ Error_text e)]]
            (api w)
  | URLResolutionFailure =>
      ∃ res e, Transformed env r res ∧ ShouldSkip res = false ∧ Error res = None ∧
        resolveTriggerURL env (appSlug r) = inr e ∧
        HTTPHandler env r w =
          finished w
            [EvLog (" [!] Exception: hookHandler: failed to create Build Trigger URL: "
                    +:+ Error_text e);
             reject [errors_New ("Failed to create Build Trigger URL: " +:+ Error_text e)]]
            (api w)
  | NoEventDetected =>
      ∃ res u, Transformed env r res ∧ ShouldSkip res = false ∧ Error res = None ∧
        resolveTriggerURL env (appSlug r) = inl u ∧ TriggerAPIParams res = [] ∧
        HTTPHandler env r w = finished w [reject [noEventError]] (api w)
  | DispatchFailure =>
      ∃ res u, Transformed env r res ∧ ShouldSkip res = false ∧ Error res = None ∧
        resolveTriggerURL env (appSlug r) = inl u ∧ TriggerAPIParams res ≠ [] ∧
        let done := attemptAll env u (apiToken r) (TriggerAPIParams res) (api w) in
        Exists is_Some done.1 ∧ errorList done.1 ≠ [] ∧
        HTTPHandler env r w =
          finished w
            (attempts env u (apiToken r) (TriggerAPIParams res) ++ [reject (errorList done.1)])
            done.2
  | DispatchSuccess =>
      ∃ res u, Transformed env r res ∧ ShouldSkip res = false ∧ Error res = None ∧
        resolveTriggerURL env (appSlug r) = inl u ∧ TriggerAPIParams res ≠ [] ∧
        let done := attemptAll env u (apiToken r) (TriggerAPIParams res) (api w) in
        Forall (λ o, o = None) done.1 ∧
        HTTPHandler env r w =
          finished w
            (attempts env u (apiToken r) (TriggerAPIParams res) ++
             [accept (successMsg (length (TriggerAPIParams res)))])
            done.2
  end.
Proof.
  unfold rowOf. case_bool_decide as Hmiss.
  { split; [done |].
    destruct (decide (serviceID r = "")) as [Hs|Hs];
      [eexists; by apply handler_no_serviceID |].
    destruct (decide (appSlug r = "")) as [Ha|Ha];
      [eexists; by apply handler_no_appSlug |].
    eexists. apply handler_no_apiToken; try done. by destruct Hmiss as [|[|]]. }
  assert (serviceID r ≠ "" ∧ appSlug r ≠ "" ∧ apiToken r ≠ "") as (Hs & Ha & Ht)
    by (repeat split; intros E; apply Hmiss; auto).
  destruct (supportedProviders env !! serviceID r) as [hookProvider|] eqn:Hl.
  2: { repeat split; try done.
       - intros E. rewrite E in Hl. unfold supportedProviders in Hl.
         by rewrite lookup_singleton_eq in Hl.
       - by apply handler_lookup_miss. }
  set (res := Transform hookProvider r).
  assert (HT : Transformed env r res) by (repeat split; try done; by exists hookProvider).
  destruct (ShouldSkip res) eqn:Hskip.
  { exists res. repeat split; try done; [by exists hookProvider | by apply handler_skip]. }
  destruct (Error res) as [e|] eqn:Herr.
  { rewrite bool_decide_eq_true_2 by done. exists res, e.
    repeat split; try done; [by exists hookProvider |].
    by apply (handler_transform_error r res). }
  rewrite bool_decide_eq_false_2 by (intros E; by apply E).
  destruct (resolveTriggerURL env (appSlug r)) as [u|e] eqn:Hurl.
  2: { exists res, e. repeat split; try done; [by exists hookProvider |].
       by apply (handler_url_failure r res). }
  destruct (TriggerAPIParams res) as [|p rest] eqn:Hps.
  { exists res, u. repeat split; try done; [by exists hookProvider |].
    by apply (handler_no_event r res u). }
  assert (Hne : TriggerAPIParams res ≠ []) by (by rewrite Hps).
  pose proof (HTTPHandler_dispatch r res u w HT Hskip Herr Hurl Hne) as Hrun.
  cbv zeta in Hrun. rewrite Hps in Hrun.
  case_bool_decide as Hfail.
  - exists res, u. rewrite Hps.
    split; [done |]. split; [done |]. split; [done |]. split; [done |]. split; [done |].
    cbv zeta. split; [by apply failed_nil_Forall |].
    rewrite Hrun. apply errorList_nil in Hfail. by rewrite Hfail.
  - exists res, u. rewrite Hps.
    split; [done |]. split; [done |]. split; [done |]. split; [done |]. split; [done |].
    cbv zeta.
    assert (Herrs : errorList (attemptAll env u (apiToken r) (p :: rest) (api w)).1 ≠ [])
      by (intros E; by apply errorList_nil in E).
    split; [by apply failed_cons_Exists |]. split; [done |].
    rewrite Hrun. unfold dispatchResponse.
    by destruct (errorList (attemptAll env u (apiToken r) (p :: rest) (api w)).1).
Qed.

(** *** Downstream calls *)

Lemma isOnlyLog_false :
  isOnlyLog env = false ↔
  config_SendRequestToURL env ≠ None ∨
  config_GetServerEnvMode env = config_ServerEnvModeProd env.
Proof.
  unfold isOnlyLog.
  by rewrite negb_false_iff, orb_true_iff, bool_decide_eq_true, String.eqb_eq.
Qed.

Lemma attempts_elem_of (u u' : URL) (tok tok' : string)
    (params : list TriggerAPIParamsModel) (p : TriggerAPIParamsModel) (b : bool) :
  EvTriggerBuild u' tok' p b ∈ attempts env u tok params →
  u' = u ∧ tok' = tok ∧ p ∈ params ∧ b = isOnlyLog env.
Proof.
  unfold attempts. intros (q & Heq & Hq)%list_elem_of_fmap.
  by injection Heq as -> -> -> ->.
Qed.

Lemma attempts_filter (u : URL) (tok : string) (params : list TriggerAPIParamsModel)
    (e : Event) :
  isTriggerBuild e = false → isLog e = false →
  List.filter isTriggerBuild (attempts env u tok params ++ [e]) = attempts env u tok params ∧
  List.filter isLog (attempts env u tok params ++ [e]) = [].
Proof.
  intros Ht Hl. unfold attempts. rewrite !List.filter_app. cbn. rewrite Ht, Hl, !app_nil_r.
  induction params as [|p rest [IH1 IH2]]; [done |]. cbn. by rewrite IH1, IH2.
Qed.

Ltac no_call Hin :=
  repeat (apply elem_of_cons in Hin as [Hin|Hin]; [discriminate Hin |]);
  by apply elem_of_nil in Hin.

(** X1: every downstream call the handler makes carries the request's API
    token, goes to the URL the resolution step gave, starts a build that
    the github provider's [Transform] returned for this request, and is
    marked log-only unless an override URL is configured or the server
    runs in production mode. *)
Theorem every_downstream_call (r : Request) (w : World) :
  ∃ (evs : list Event) (a : ApiState),
    HTTPHandler env r w = finished w evs a ∧
    ∀ (u : URL) (tok : string) (p : TriggerAPIParamsModel) (b : bool),
      EvTriggerBuild u tok p b ∈ evs →
      tok = apiToken r ∧
      resolveTriggerURL env (appSlug r) = inl u ∧
      p ∈ TriggerAPIParams (Transform (github_HookProvider env) r) ∧
      (b = false ↔ config_SendRequestToURL env ≠ None ∨
                   config_GetServerEnvMode env = config_ServerEnvModeProd env).
Proof.
  pose proof (handler_cases r w) as H.
  destruct (rowOf env r (api w)).
  - destruct H as (_ & e & ->). eexists _, _. split; [done |].
    intros u tok p b Hin. no_call Hin.
  - destruct H as (_ & _ & _ & _ & ->). eexists _, _. split; [done |].
    intros u tok p b Hin. no_call Hin.
  - destruct H as (res & _ & _ & ->). eexists _, _. split; [done |].
    intros u tok p b Hin. no_call Hin.
  - destruct H as (res & e & _ & _ & _ & ->). eexists _, _. split; [done |].
    intros u tok p b Hin. no_call Hin.
  - destruct H as (res & e & _ & _ & _ & _ & ->). eexists _, _. split; [done |].
    intros u tok p b Hin. no_call Hin.
  - destruct H as (res & u0 & _ & _ & _ & _ & _ & ->). eexists _, _. split; [done |].
    intros u tok p b Hin. no_call Hin.
  - destruct H as (res & u0 & HT & _ & _ & Hurl & _ & _ & _ & ->).
    apply Transformed_github in HT as (_ & _ & _ & ->).
    eexists _, _. split; [done |].
    intros u tok p b [Hin|Hin]%elem_of_app; [| by apply list_elem_of_singleton in Hin].
    apply attempts_elem_of in Hin as (-> & -> & Hp & ->).
    by rewrite isOnlyLog_false.
  - destruct H as (res & u0 & HT & _ & _ & Hurl & _ & _ & ->).
    apply Transformed_github in HT as (_ & _ & _ & ->).
    eexists _, _. split; [done |].
    intros u tok p b [Hin|Hin]%elem_of_app; [| by apply list_elem_of_singleton in Hin].
    apply attempts_elem_of in Hin as (-> & -> & Hp & ->).
    by rewrite isOnlyLog_false.
Qed.

(** X4: the downstream calls of one request are all or nothing.  Either the
    handler calls nothing and leaves the downstream API as it found it, or
    the request names github, its transform result neither skips nor
    carries an error, the trigger URL resolved, and the calls are exactly
    one per trigger parameter, in order. *)
Theorem downstream_calls_all_or_nothing (r : Request) (w : World) :
  ∃ (evs : list Event) (a : ApiState),
    HTTPHandler env r w = finished w evs a ∧
    ((List.filter isTriggerBuild evs = [] ∧ a = api w) ∨
     (∃ u : URL,
        let res := Transform (github_HookProvider env) r in
        serviceID r = "github" ∧ ShouldSkip res = false ∧ Error res = None ∧
        resolveTriggerURL env (appSlug r) = inl u ∧
        1 ≤ length (TriggerAPIParams res) ∧
        List.filter isTriggerBuild evs = attempts env u (apiToken r) (TriggerAPIParams res) ∧
        length (List.filter isTriggerBuild evs) = length (TriggerAPIParams res) ∧
        a = (attemptAll env u (apiToken r) (TriggerAPIParams res) (api w)).2)).
Proof.
  pose proof (handler_cases r w) as H.
  assert (Hpos : ∀ l : list TriggerAPIParamsModel, l ≠ [] → 1 ≤ length l)
    by (intros [|x l] Hl; [done | cbn; lia]).
  destruct (rowOf env r (api w)).
  - destruct H as (_ & e & ->). eexists _, _. split; [done | by left].
  - destruct H as (_ & _ & _ & _ & ->). eexists _, _. split; [done | by left].
  - destruct H as (res & _ & _ & ->). eexists _, _. split; [done | by left].
  - destruct H as (res & e & _ & _ & _ & ->). eexists _, _. split; [done | by left].
  - destruct H as (res & e & _ & _ & _ & _ & ->). eexists _, _. split; [done | by left].
  - destruct H as (res & u0 & _ & _ & _ & _ & _ & ->). eexists _, _. split; [done | by left].
  - destruct H as (res & u & HT & Hskip & Herr & Hurl & Hne & _ & _ & ->).
    apply Transformed_github in HT as (Hid & _ & _ & ->).
    eexists _, _. split; [done |]. right. exists u. cbv zeta.
    destruct (attempts_filter u (apiToken r)
                (TriggerAPIParams (Transform (github_HookProvider env) r))
                (reject (errorList (attemptAll env u (apiToken r)
                   (TriggerAPIParams (Transform (github_HookProvider env) r)) (api w)).1))
                eq_refl eq_refl) as [-> _].
    repeat split; auto using attempts_length.
  - destruct H as (res & u & HT & Hskip & Herr & Hurl & Hne & _ & ->).
    apply Transformed_github in HT as (Hid & _ & _ & ->).
    eexists _, _. split; [done |]. right. exists u. cbv zeta.
    destruct (attempts_filter u (apiToken r)
                (TriggerAPIParams (Transform (github_HookProvider env) r))
                (accept (successMsg (length
                   (TriggerAPIParams (Transform (github_HookProvider env) r)))))
                eq_refl eq_refl) as [-> _].
    repeat split; auto using attempts_length.
Qed.

Lemma errorList_wraps (outcomes : list (option error)) :
  Forall (λ e, ∃ e0, Some e0 ∈ outcomes ∧
               Error_text e = "Failed to Trigger the Build: " +:+ Error_text e0)
         (errorList outcomes).
Proof.
  apply Forall_forall. intros e He. unfold errorList in He.
  apply list_elem_of_omap in He as ([e0|] & Hin & Heq); [| done].
  exists e0. split; [done |]. by injection Heq as <-.
Qed.

Lemma errorList_bound (outcomes : list (option error)) :
  length (errorList outcomes) ≤ length outcomes.
Proof.
  induction outcomes as [|o outcomes IH]; [done |].
  rewrite errorList_cons. destruct o; cbn; lia.
Qed.

(** X2: when at least one downstream call of a dispatched request fails,
    the handler still makes every call and then rejects with status 400;
    the errors it reports are exactly those of the failed calls, in call
    order, each with the text "Failed to Trigger the Build: " followed by
    the text of the call's error, and there are between one and N of
    them. *)
Theorem dispatch_failure_rejected (r : Request) (res : TransformResultModel)
    (triggerURL : URL) (w : World) :
  Transformed env r res → ShouldSkip res = false → Error res = None →
  resolveTriggerURL env (appSlug r) = inl triggerURL →
  let params := TriggerAPIParams res in
  let done := attemptAll env triggerURL (apiToken r) params (api w) in
  Exists is_Some done.1 →
  HTTPHandler env r w =
    finished w
      (attempts env triggerURL (apiToken r) params ++
       [EvRespond (RespondWithErrorJSON 400 {| Errors := errorList done.1 |})])
      done.2 ∧
  1 ≤ length (errorList done.1) ≤ length params ∧
  length (errorList done.1) = length (failed done.1) ∧
  Forall (λ e, ∃ e0, Some e0 ∈ done.1 ∧
               Error_text e = "Failed to Trigger the Build: " +:+ Error_text e0)
         (errorList done.1).
Proof.
  intros HT Hskip Herr Hurl params done Hfail.
  assert (Hne : params ≠ []).
  { intros E. subst done. rewrite E in Hfail. cbn in Hfail. inversion Hfail. }
  assert (Herrs : errorList done.1 ≠ []).
  { intros E. apply errorList_nil in E. by apply failed_cons_Exists in Hfail. }
  split; [| split; [split |]; [| | split]].
  - rewrite (HTTPHandler_dispatch r res triggerURL w HT Hskip Herr Hurl Hne).
    fold params done. unfold dispatchResponse.
    by destruct (errorList done.1).
  - destruct (errorList done.1); [done | cbn; lia].
  - rewrite <- (attemptAll_length triggerURL (apiToken r) params (api w)).
    apply errorList_bound.
  - apply errorList_length.
  - apply errorList_wraps.
Qed.

(** X3: the branch for exactly one trigger parameter is a shortcut, not a
    different behaviour: on every non-empty list the closure does what the
    range loop alone would do.  Only the empty list is special, where the
    loop would report no error and the closure reports "no event". *)
Theorem one_trigger_branch_is_the_loop (triggerURL : URL) (tok : string)
    (params : list TriggerAPIParamsModel) (w : World) :
  triggerBuilds env triggerURL tok params (length params) w =
  match params with
  | [] => (Returned [noEventError], w)
  | _ => triggerEach env triggerURL tok params [] w
  end ∧
  triggerEach env triggerURL tok [] [] w = (Returned [], w).
Proof.
  split; [| done].
  destruct params as [|p [|q rest]]; [done | | done].
  unfold triggerBuilds. cbn [length Nat.eqb index lookup list_lookup triggerEach].
  unfold bind at 1. unfold ret at 1. unfold bind, triggerBuild, ret.
  destruct (bitriseapi_TriggerBuild env triggerURL tok p (isOnlyLog env) (api w)) as [o a].
  by destruct o.
Qed.

(** *** Logging *)

Ltac quiet_row :=
  cbn; split; [lia | split; [by intros ? | by intros ?]].
Ltac logged_row :=
  cbn; split; [lia | split; [intros _; repeat split; by eexists _, _ | by intros ?]].

(** X5: the handler writes at most one log line per request.  When it
    writes one, the request is rejected with a single error, no downstream
    call has been made and the downstream API is untouched; so the handler
    itself never logs a failed downstream call. *)
Theorem at_most_one_log_line (r : Request) (w : World) :
  ∃ (evs : list Event) (a : ApiState),
    HTTPHandler env r w = finished w evs a ∧
    length (List.filter isLog evs) ≤ 1 ∧
    (List.filter isLog evs ≠ [] →
       a = api w ∧ List.filter isTriggerBuild evs = [] ∧
       ∃ line e, evs = [EvLog line; reject [e]]) ∧
    (List.filter isTriggerBuild evs ≠ [] → List.filter isLog evs = []).
Proof.
  pose proof (handler_cases r w) as H.
  destruct (rowOf env r (api w)).
  - destruct H as (_ & e & ->). eexists _, _. split; [done |]. quiet_row.
  - destruct H as (_ & _ & _ & _ & ->). eexists _, _. split; [done |]. quiet_row.
  - destruct H as (res & _ & _ & ->). eexists _, _. split; [done |]. quiet_row.
  - destruct H as (res & e & _ & _ & _ & ->). eexists _, _. split; [done |]. logged_row.
  - destruct H as (res & e & _ & _ & _ & _ & ->). eexists _, _. split; [done |]. logged_row.
  - destruct H as (res & u0 & _ & _ & _ & _ & _ & ->). eexists _, _. split; [done |].
    quiet_row.
  - destruct H as (res & u & _ & _ & _ & _ & _ & _ & _ & ->).
    eexists _, _. split; [done |].
    destruct (attempts_filter u (apiToken r) (TriggerAPIParams res)
                (reject (errorList (attemptAll env u (apiToken r)
                   (TriggerAPIParams res) (api w)).1))
                eq_refl eq_refl) as [_ ->].
    quiet_row.
  - destruct H as (res & u & _ & _ & _ & _ & _ & _ & ->).
    eexists _, _. split; [done |].
    destruct (attempts_filter u (apiToken r) (TriggerAPIParams res)
                (accept (successMsg (length (TriggerAPIParams res))))
                eq_refl eq_refl) as [_ ->].
    quiet_row.
Qed.

(** *** Configuration and route variables *)

(** X6: with an override URL configured, [bitriseapi.BuildTriggerURL] has
    no influence on the handler: whatever resolver is put in its place,
    every request is handled the same way. *)
Theorem override_ignores_resolver (resolver : string → string → URL + error)
    (u : URL) (r : Request) (w : World) :
  config_SendRequestToURL env = Some u →
  HTTPHandler (withBuildTriggerURL env resolver) r w = HTTPHandler env r w.
Proof.
  intros Hcfg. unfold HTTPHandler, resolveTriggerURL.
  cbn [withBuildTriggerURL config_SendRequestToURL]. by rewrite Hcfg.
Qed.

Lemma required_var_unchanged (key name : string) (r : Request) :
  mux_Vars r !! key = Some "" →
  default "" (mux_Vars (withoutVar key r) !! name) = default "" (mux_Vars r !! name).
Proof.
  intros Hkey. unfold withoutVar. cbn [mux_Vars].
  destruct (decide (key = name)) as [<-|Hne].
  - by rewrite lookup_delete_eq, Hkey.
  - by rewrite lookup_delete_ne.
Qed.

(** X8: a required route variable that is set to the empty string counts
    as not set: removing it from the request changes nothing in what the
    handler does, which is to reject the request at the presence
    checks. *)
Theorem empty_variable_is_omitted (key : string) (r : Request) (w : World) :
  key ∈ requiredVars → mux_Vars r !! key = Some "" →
  HTTPHandler env (withoutVar key r) w = HTTPHandler env r w ∧
  ∃ e, HTTPHandler env r w = finished w [reject [e]] (api w).
Proof.
  intros Hin Hkey.
  assert (Hs : serviceID (withoutVar key r) = serviceID r)
    by apply (required_var_unchanged key "service-id" r Hkey).
  assert (Ha : appSlug (withoutVar key r) = appSlug r)
    by apply (required_var_unchanged key "app-slug" r Hkey).
  assert (Ht : apiToken (withoutVar key r) = apiToken r)
    by apply (required_var_unchanged key "api-token" r Hkey).
  assert (Hmiss : serviceID r = "" ∨ appSlug r = "" ∨ apiToken r = "").
  { unfold requiredVars in Hin. unfold serviceID, appSlug, apiToken.
    repeat (apply elem_of_cons in Hin as [->|Hin]; [rewrite Hkey; auto |]).
    by apply elem_of_nil in Hin. }
  destruct (decide (serviceID r = "")) as [Es|Es].
  { rewrite !handler_no_serviceID by congruence. split; [done | by eexists]. }
  destruct (decide (appSlug r = "")) as [Ea|Ea].
  { rewrite !handler_no_appSlug by congruence. split; [done | by eexists]. }
  destruct (decide (apiToken r = "")) as [Et|Et]; [| by destruct Hmiss as [|[|]]].
  rewrite !handler_no_apiToken by congruence. split; [done | by eexists].
Qed.

(** *** Acceptance *)

(** X7: the handler never accepts a request unless it names github and
    carries an app slug and an API token, and then only in two ways:
    github's transform result asks to skip, and the acceptance is the
    only event; or the result has no error and at least one trigger
    parameter, the trigger URL resolved, and the acceptance follows one
    downstream call per parameter, every one of which succeeded. *)
Theorem accepted_only_after_skip_or_success (r : Request) (w : World) :
  ∃ (evs : list Event) (a : ApiState),
    HTTPHandler env r w = finished w evs a ∧
    ∀ msg : string,
      accept msg ∈ evs →
      serviceID r = "github" ∧ appSlug r ≠ "" ∧ apiToken r ≠ "" ∧
      let res := Transform (github_HookProvider env) r in
      (ShouldSkip res = true ∧ evs = [accept msg] ∧ a = api w) ∨
      (ShouldSkip res = false ∧ Error res = None ∧
       1 ≤ length (TriggerAPIParams res) ∧
       ∃ u : URL,
         resolveTriggerURL env (appSlug r) = inl u ∧
         Forall (λ o, o = None)
           (attemptAll env u (apiToken r) (TriggerAPIParams res) (api w)).1 ∧
         evs = attempts env u (apiToken r) (TriggerAPIParams res) ++ [accept msg]).
Proof.
  pose proof (handler_cases r w) as H.
  destruct (rowOf env r (api w)).
  - destruct H as (_ & e & ->). eexists _, _. split; [done |].
    intros msg Hin. no_call Hin.
  - destruct H as (_ & _ & _ & _ & ->). eexists _, _. split; [done |].
    intros msg Hin. no_call Hin.
  - destruct H as (res & HT & Hskip & ->).
    apply Transformed_github in HT as (Hid & Ha & Ht & ->).
    eexists _, _. split; [done |].
    intros msg Hin. apply list_elem_of_singleton in Hin. injection Hin as ->.
    repeat split; try done. by left.
  - destruct H as (res & e & _ & _ & _ & ->). eexists _, _. split; [done |].
    intros msg Hin. no_call Hin.
  - destruct H as (res & e & _ & _ & _ & _ & ->). eexists _, _. split; [done |].
    intros msg Hin. no_call Hin.
  - destruct H as (res & u0 & _ & _ & _ & _ & _ & ->). eexists _, _. split; [done |].
    intros msg Hin. no_call Hin.
  - destruct H as (res & u & _ & _ & _ & _ & _ & _ & _ & ->).
    eexists _, _. split; [done |].
    intros msg [Hin|Hin]%elem_of_app; [| no_call Hin].
    apply list_elem_of_fmap in Hin as (q & Heq & _). discriminate Heq.
  - destruct H as (res & u & HT & Hskip & Herr & Hurl & Hne & Hall & ->).
    apply Transformed_github in HT as (Hid & Ha & Ht & ->).
    eexists _, _. split; [done |].
    intros msg [Hin|Hin]%elem_of_app.
    { apply list_elem_of_fmap in Hin as (q & Heq & _). discriminate Heq. }
    apply list_elem_of_singleton in Hin. injection Hin as ->.
    repeat split; try done. right.
    repeat split; try done.
    + destruct (TriggerAPIParams (Transform (github_HookProvider env) r));
        [done | cbn; lia].
    + by exists u.
Qed.

(** *** What the handler does not look at *)

(** X10: the provider is not consulted for a request that fails the
    presence checks or names a service other than github: whatever
    provider is registered, such a request is handled the same way. *)
Theorem provider_not_consulted (provider : @Provider TriggerAPIParamsModel Payload)
    (r : Request) (w : World) :
  serviceID r = "" ∨ appSlug r = "" ∨ apiToken r = "" ∨ serviceID r ≠ "github" →
  HTTPHandler (withProvider env provider) r w = HTTPHandler env r w.
Proof.
  intros Hcond. unfold HTTPHandler.
  destruct (String.eqb_spec (serviceID r) "") as [Es|Es]; [done |].
  destruct (String.eqb_spec (appSlug r) "") as [Ea|Ea]; [done |].
  destruct (String.eqb_spec (apiToken r) "") as [Et|Et]; [done |].
  destruct Hcond as [|[|[|Hid]]]; try done.
  unfold supportedProviders. by rewrite !lookup_singleton_ne.
Qed.

End Properties.

Example three_builds_message : successMsg 3 = "Successfully triggered 3 builds.".
Proof. reflexivity. Qed.

(** Three descriptors, the second fails: three calls, one error. *)
Example second_of_three_fails :
  HTTPHandler (Fake.env None) (Fake.hook "github" (Fake.result ["a"; "broken"; "c"] false None))
    Fake.start =
  (Returned tt,
   {| events :=
        [EvTriggerBuild Fake.canonical "secret" "a" false;
         EvTriggerBuild Fake.canonical "secret" "broken" false;
         EvTriggerBuild Fake.canonical "secret" "c" false;
         EvRespond (RespondWithErrorJSON 400
           {| Errors := [errors_New "Failed to Trigger the Build: status 500"] |})];
      api := 3 |}).
Proof. vm_compute. reflexivity. Qed.

Example one_build_succeeds :
  HTTPHandler (Fake.env None) (Fake.hook "github" (Fake.result ["a"] false None)) Fake.start =
  (Returned tt,
   {| events :=
        [EvTriggerBuild Fake.canonical "secret" "a" false;
         EvRespond (RespondWithSuccess {| Message := "Successfully triggered 1 build." |})];
      api := 1 |}).
Proof. vm_compute. reflexivity. Qed.

(** ** The theorems at concrete requests *)

Lemma Transformed_hook (override : option URL) (res : Fake.Payload) :
  Transformed (Fake.env override) (Fake.hook "github" res) res.
Proof.
  unfold Transformed.
  repeat split; try (intros H; vm_compute in H; discriminate H).
  exists Fake.HookProvider. split; reflexivity.
Defined.

Lemma skip_acknowledged_with_reason_witness :
  let res := Fake.result [] true (Some (errors_New "X")) in
  Transformed (Fake.env None) (Fake.hook "github" res) res ∧
  ShouldSkip res = true ∧ Error res = Some (errors_New "X") ∧
  ∃ msg, HTTPHandler (Fake.env None) (Fake.hook "github" res) Fake.start =
           finished Fake.start [accept msg] 0 ∧
         Includes msg "X".
Proof.
  intros res.
  split; [apply Transformed_hook |]. split; [reflexivity |]. split; [reflexivity |].
  apply (skip_acknowledged_with_reason (Fake.env None) (Fake.hook "github" res) res
           (errors_New "X") Fake.start);
    [apply Transformed_hook | reflexivity | reflexivity].
Defined.

Lemma missing_parameter_rejected_witness :
  let env := Fake.env None in
  let res := Fake.result ["a"] false None in
  HTTPHandler env (Fake.request [("app-slug", "slug"); ("api-token", "secret")] res) Fake.start =
    finished Fake.start [reject [errors_New "No service-id defined"]] 0 ∧
  HTTPHandler env (Fake.request [("service-id", "github"); ("api-token", "secret")] res) Fake.start =
    finished Fake.start [reject [errors_New "No App Slug parameter defined"]] 0 ∧
  HTTPHandler env (Fake.request [("service-id", "github"); ("app-slug", "slug")] res) Fake.start =
    finished Fake.start [reject [errors_New "No API Token parameter defined"]] 0 ∧
  HTTPHandler env (Fake.request [("service-id", "github")] res) Fake.start =
    finished Fake.start [reject [errors_New "No App Slug parameter defined"]] 0 ∧
  HTTPHandler env (Fake.request [] res) Fake.start =
    finished Fake.start [reject [errors_New "No service-id defined"]] 0.
Proof.
  intros env res. split; [| split; [| split; [| split]]].
  - apply (proj1 (missing_parameter_rejected env _ Fake.start)). reflexivity.
  - apply (proj1 (proj2 (missing_parameter_rejected env _ Fake.start)));
      [intros H; vm_compute in H; discriminate H | reflexivity].
  - apply (proj2 (proj2 (missing_parameter_rejected env _ Fake.start)));
      [intros H; vm_compute in H; discriminate H ..| reflexivity].
  - apply (proj1 (proj2 (missing_parameter_rejected env _ Fake.start)));
      [intros H; vm_compute in H; discriminate H | reflexivity].
  - apply (proj1 (missing_parameter_rejected env _ Fake.start)). reflexivity.
Defined.

Lemma unsupported_provider_rejected_witness :
  let r := Fake.hook "gitlab" (Fake.result ["a"] false None) in
  appSlug r ≠ "" ∧ apiToken r ≠ "" ∧
  (serviceID r ∉ dom (supportedProviders (Fake.env None))) ∧
  ∃ e : error,
    HTTPHandler (Fake.env None) r Fake.start = finished Fake.start [reject [e]] 0 ∧
    Includes (Error_text e) "gitlab" ∧
    (serviceID r ≠ "" → e = errors_New "Unsupported Webhook Type / Provider: gitlab").
Proof.
  intros r.
  assert (Ha : appSlug r ≠ "") by (intros H; vm_compute in H; discriminate H).
  assert (Ht : apiToken r ≠ "") by (intros H; vm_compute in H; discriminate H).
  assert (Hdom : serviceID r ∉ dom (supportedProviders (Fake.env None))).
  { intros H. apply registry_keys in H. vm_compute in H. discriminate H. }
  split; [exact Ha |]. split; [exact Ht |]. split; [exact Hdom |].
  exact (unsupported_provider_rejected (Fake.env None) r Fake.start Ha Ht Hdom).
Defined.

(** C5 as the specification words it fails: a request for the unknown
    service "gitlab" that carries an app slug and an empty API token is
    rejected for the missing token, and that error does not mention
    "gitlab". *)
Lemma unknown_provider_hidden_by_missing_token :
  let r := Fake.request [("service-id", "gitlab"); ("app-slug", "slug"); ("api-token", "")]
             (Fake.result ["a"] false None) in
  (serviceID r ∉ dom (supportedProviders (Fake.env None))) ∧
  HTTPHandler (Fake.env None) r Fake.start =
    finished Fake.start [reject [errors_New "No API Token parameter defined"]] 0 ∧
  ¬ Includes "No API Token parameter defined" (serviceID r).
Proof.
  intros r. split; [| split].
  - intros H. apply registry_keys in H. vm_compute in H. discriminate H.
  - vm_compute. reflexivity.
  - intros H. apply Includes_includes in H. vm_compute in H. discriminate H.
Qed.

Lemma transform_error_rejected_witness :
  let res := Fake.result ["a"] false (Some (errors_New "unexpected end of JSON input")) in
  let r := Fake.hook "github" res in
  Transformed (Fake.env None) r res ∧
  HTTPHandler (Fake.env None) r Fake.start =
    finished Fake.start
      [EvLog " (debug) Failed to transform the webhook: unexpected end of JSON input";
       reject [errors_New "Failed to transform the webhook: unexpected end of JSON input"]]
      0 ∧
  Includes "Failed to transform the webhook: unexpected end of JSON input"
    "unexpected end of JSON input".
Proof.
  intros res r. split; [apply Transformed_hook |].
  apply (transform_error_rejected (Fake.env None) r res
           (errors_New "unexpected end of JSON input") Fake.start);
    [apply Transformed_hook | reflexivity | reflexivity].
Defined.

Lemma skip_takes_precedence_over_error_witness :
  let res := Fake.result ["a"; "b"] true (Some (errors_New "malformed payload")) in
  let r := Fake.hook "github" res in
  Transformed (Fake.env None) r res ∧
  HTTPHandler (Fake.env None) r Fake.start =
    finished Fake.start [accept "Acknowledged, but skipping. Reason: malformed payload"] 0.
Proof.
  intros res r. split; [apply Transformed_hook |].
  apply (skip_takes_precedence_over_error (Fake.env None) r res
           (errors_New "malformed payload") Fake.start);
    [apply Transformed_hook | reflexivity | reflexivity].
Defined.

Lemma dispatcher_attempts_every_trigger_witness :
  let env := Fake.env None in
  let params := ["a"; "broken"; "c"] in
  1 ≤ length params ∧
  ∃ (outcomes : list (option error)) (a : Fake.ApiState),
    attemptAll env Fake.canonical "secret" params 0 = (outcomes, a) ∧
    length outcomes = 3 ∧
    length (attempts env Fake.canonical "secret" params) = 3 ∧
    triggerBuilds env Fake.canonical "secret" params 3 Fake.start =
      (Returned (errorList outcomes),
       {| events := attempts env Fake.canonical "secret" params; api := a |}) ∧
    length (errorList outcomes) = length (failed outcomes) ∧
    ∀ (r : @Request Fake.Payload) (res : Fake.Payload),
      Transformed env r res → ShouldSkip res = false → Error res = None →
      resolveTriggerURL env (appSlug r) = inl Fake.canonical →
      TriggerAPIParams res = params → apiToken r = "secret" →
      HTTPHandler env r Fake.start =
        finished Fake.start
          (attempts env Fake.canonical "secret" params ++
           [dispatchResponse 3 (errorList outcomes)])
          a.
Proof.
  intros env params. split; [cbn; lia |].
  apply (dispatcher_attempts_every_trigger env Fake.canonical "secret" params Fake.start).
  cbn; lia.
Defined.

Lemma all_triggers_succeed_accepted_witness :
  let env := Fake.env None in
  let res := Fake.result ["a"; "b"] false None in
  let r := Fake.hook "github" res in
  Transformed env r res ∧
  Forall (λ o, o = None) (attemptAll env Fake.canonical "secret" ["a"; "b"] 0).1 ∧
  HTTPHandler env r Fake.start =
    finished Fake.start
      [EvTriggerBuild Fake.canonical "secret" "a" false;
       EvTriggerBuild Fake.canonical "secret" "b" false;
       accept "Successfully triggered 2 builds."]
      2.
Proof.
  intros env res r.
  assert (Hall : Forall (λ o : option error, o = None)
                   (attemptAll env Fake.canonical "secret" ["a"; "b"] 0).1)
    by (repeat constructor).
  split; [apply Transformed_hook |]. split; [exact Hall |].
  apply (all_triggers_succeed_accepted env r res Fake.canonical Fake.start);
    [apply Transformed_hook | reflexivity | reflexivity | reflexivity | cbn; lia | exact Hall].
Defined.

Lemma Transformed_unparsable (res : Fake.Payload) :
  Transformed (Fake.env None) (Fake.unparsable res) res.
Proof.
  unfold Transformed.
  repeat split; try (intros H; vm_compute in H; discriminate H).
  exists Fake.HookProvider. split; reflexivity.
Defined.

Lemma trigger_url_resolution_witness :
  let override := url_Parse "http://localhost:4000/trigger" in
  let res := Fake.result ["a"] false None in
  (Transformed (Fake.env (Some override)) (Fake.hook "github" res) res ∧
   HTTPHandler (Fake.env (Some override)) (Fake.hook "github" res) Fake.start =
     finished Fake.start
       [EvTriggerBuild override "secret" "a" false;
        accept "Successfully triggered 1 build."] 1) ∧
  (Transformed (Fake.env None) (Fake.hook "github" res) res ∧
   HTTPHandler (Fake.env None) (Fake.hook "github" res) Fake.start =
     finished Fake.start
       [EvTriggerBuild (url_Parse "https://www.bitrise.io/app/slug/build/start.json")
          "secret" "a" false;
        accept "Successfully triggered 1 build."] 1) ∧
  (Transformed (Fake.env None) (Fake.unparsable res) res ∧
   HTTPHandler (Fake.env None) (Fake.unparsable res) Fake.start =
     finished Fake.start
       [EvLog " [!] Exception: hookHandler: failed to create Build Trigger URL: BuildTriggerURL: Failed to parse PATH, error: invalid URL escape";
        reject [errors_New "Failed to create Build Trigger URL: BuildTriggerURL: Failed to parse PATH, error: invalid URL escape"]]
       0).
Proof.
  intros override res.
  split; [| split]; (split; [first [apply Transformed_hook | apply Transformed_unparsable] |]).
  - apply (proj1 (trigger_url_resolution (Fake.env (Some override)) (Fake.hook "github" res)
                    res Fake.start (Transformed_hook _ res) eq_refl eq_refl) override);
      [reflexivity | discriminate].
  - apply (proj1 (proj2 (trigger_url_resolution (Fake.env None) (Fake.hook "github" res)
                           res Fake.start (Transformed_hook _ res) eq_refl eq_refl))
             (url_Parse "https://www.bitrise.io/app/slug/build/start.json"));
      [reflexivity | reflexivity | discriminate].
  - apply (proj2 (proj2 (trigger_url_resolution (Fake.env None) (Fake.unparsable res)
                           res Fake.start (Transformed_unparsable res) eq_refl eq_refl))
             (errors_New "BuildTriggerURL: Failed to parse PATH, error: invalid URL escape"));
      reflexivity.
Defined.

Lemma no_event_rejected_after_url_resolution_witness :
  let res := Fake.result [] false None in
  Transformed (Fake.env None) (Fake.hook "github" res) res ∧
  HTTPHandler (Fake.env None) (Fake.hook "github" res) Fake.start =
    finished Fake.start
      [reject [errors_New "After processing the webhook we failed to detect any event in it which could be turned into a build."]]
      0.
Proof.
  intros res. split; [apply Transformed_hook |].
  exact (no_event_rejected_after_url_resolution (Fake.env None) (Fake.hook "github" res)
           res Fake.start (Transformed_hook None res) eq_refl eq_refl eq_refl).
Defined.

(** C3 as the specification words it fails: with no override configured
    and an app slug the resolver cannot parse, a result with no
    descriptor, no skip and no error is answered with the URL error, not
    with the "no event" error. *)
Lemma no_event_preempted_by_url_failure :
  let res := Fake.result [] false None in
  let r := Fake.unparsable res in
  Transformed (Fake.env None) r res ∧
  ShouldSkip res = false ∧ Error res = None ∧ TriggerAPIParams res = [] ∧
  HTTPHandler (Fake.env None) r Fake.start =
    finished Fake.start
      [EvLog " [!] Exception: hookHandler: failed to create Build Trigger URL: BuildTriggerURL: Failed to parse PATH, error: invalid URL escape";
       reject [errors_New "Failed to create Build Trigger URL: BuildTriggerURL: Failed to parse PATH, error: invalid URL escape"]]
      0 ∧
  HTTPHandler (Fake.env None) r Fake.start ≠
    finished Fake.start
      [reject [errors_New "After processing the webhook we failed to detect any event in it which could be turned into a build."]]
      0.
Proof.
  intros res r.
  split; [apply Transformed_unparsable |].
  split; [reflexivity |]. split; [reflexivity |]. split; [reflexivity |].
  split; [vm_compute; reflexivity |].
  intros H. vm_compute in H. discriminate H.
Qed.

Lemma dispatch_failure_rejected_witness :
  let env := Fake.env None in
  let res := Fake.result ["a"; "broken"; "c"] false None in
  let r := Fake.hook "github" res in
  Transformed env r res ∧
  Exists is_Some (attemptAll env Fake.canonical "secret" ["a"; "broken"; "c"] 0).1 ∧
  HTTPHandler env r Fake.start =
    finished Fake.start
      [EvTriggerBuild Fake.canonical "secret" "a" false;
       EvTriggerBuild Fake.canonical "secret" "broken" false;
       EvTriggerBuild Fake.canonical "secret" "c" false;
       EvRespond (RespondWithErrorJSON 400
         {| Errors := [errors_New "Failed to Trigger the Build: status 500"] |})]
      3.
Proof.
  intros env res r.
  assert (Hfail : Exists is_Some
                    (attemptAll env Fake.canonical "secret" ["a"; "broken"; "c"] 0).1)
    by (right; left; by eexists).
  split; [apply Transformed_hook |]. split; [exact Hfail |].
  apply (dispatch_failure_rejected env r res Fake.canonical Fake.start
           (Transformed_hook None res) eq_refl eq_refl eq_refl Hfail).
Defined.

Lemma override_ignores_resolver_witness :
  let env := Fake.env (Some Fake.override) in
  let r := Fake.unparsable (Fake.result ["a"] false None) in
  config_SendRequestToURL env = Some Fake.override ∧
  HTTPHandler (withBuildTriggerURL env Fake.brokenResolver) r Fake.start =
  HTTPHandler env r Fake.start.
Proof.
  intros env r. split; [reflexivity |].
  apply (override_ignores_resolver env Fake.brokenResolver Fake.override r Fake.start).
  reflexivity.
Defined.

Lemma empty_variable_is_omitted_witness :
  let env := Fake.env None in
  let r := Fake.request [("service-id", "github"); ("app-slug", ""); ("api-token", "secret")]
             (Fake.result ["a"] false None) in
  mux_Vars r !! "app-slug" = Some "" ∧
  HTTPHandler env (withoutVar "app-slug" r) Fake.start = HTTPHandler env r Fake.start ∧
  ∃ e, HTTPHandler env r Fake.start = finished Fake.start [reject [e]] 0.
Proof.
  intros env r. split; [reflexivity |].
  apply (empty_variable_is_omitted env "app-slug" r Fake.start); [| reflexivity].
  unfold requiredVars. apply list_elem_of_further, list_elem_of_here.
Defined.

Lemma provider_not_consulted_witness :
  let env := Fake.env None in
  let r := Fake.hook "gitlab" (Fake.result ["a"] false None) in
  serviceID r ≠ "github" ∧
  HTTPHandler (withProvider env Fake.EagerProvider) r Fake.start =
  HTTPHandler env r Fake.start.
Proof.
  intros env r.
  assert (Hid : serviceID r ≠ "github") by (intros H; vm_compute in H; discriminate H).
  split; [exact Hid |].
  apply (provider_not_consulted env Fake.EagerProvider r Fake.start).
  right. right. right. exact Hid.
Defined.
